(** * AccelerateView: the model table of the dashboard

    A shallow embedding of [frontend/src/views/AccelerateView.vue]: the
    script block ([tagsFilterOptions], [tagsFilter], [getTagColor],
    [renderIcon], [getPluginOptions], [createColumns2] and the setup
    bindings) and the template that binds them to the toolkit's widgets.

    JavaScript values are modelled as the code uses them: arrays are lists,
    the imported [tagColor] object is a finite map from property names to
    values, object literals are allocated in a heap and compared by
    reference, and the script's side effects (console, [window.open], the
    [customModel] ref) are threaded through a state monad. *)

From stdpp Require Import base option list strings gmap.
From Stdlib Require Import ZArith Lia.

Set Warnings "-register-all".

Open Scope string_scope.
Open Scope list_scope.

(** ** The imported data model ([@/core/models]) *)

(** Modelled from the spec: the [Model] type exported by [@/core/models],
    which is not part of the view's file. The spec lists its fields: name,
    huggingface_id, huggingface_url, tags and example_image_url; the view
    uses [tags] as a JavaScript array of strings ([indexOf], [forEach],
    [map]). *)
Record Model := mkModel {
  name : string;
  huggingface_id : string;
  huggingface_url : string;
  tags : list string;
  example_image_url : string;
}.

(** ** JavaScript primitives used by the script *)

Module JS.

(** [Array.prototype.indexOf]: the first index holding a value strictly
    equal to [x], or [-1]. *)
Fixpoint indexOf_from (l : list string) (x : string) (i : Z) : Z :=
  match l with
  | [] => (-1)%Z
  | y :: l' => if decide (y = x) then i else indexOf_from l' x (i + 1)%Z
  end.

Definition indexOf (l : list string) (x : string) : Z :=
  indexOf_from l x 0%Z.

(** Truthiness of a number in the condition of [? :]: every integer but
    [0] is truthy. *)
Definition truthy (n : Z) : bool := negb (n =? 0)%Z.

(** A reference to an object allocated on the heap. *)
Definition Ref := nat.

(** [Array.prototype.includes] on an array of object references:
    SameValueZero on objects is reference identity. *)
Definition includes (arr : list Ref) (r : Ref) : bool :=
  bool_decide (r ∈ arr).

End JS.

(** ** Toolkit interface types ([naive-ui]) *)

(** A JavaScript number. The script applies a single operation to the
    numbers it meets, [toString()], so a number is modelled by what that
    operation returns for it: the string [Number.prototype.toString] prints
    (["7"], ["-0.5"], ["1e+21"], ["NaN"], ["Infinity"]). The print
    determines the number up to the sign of zero, which prints as ["0"]
    either way. A string that no number prints as stands for no value of
    the script; what is proved of all of [Number] holds of the numbers. *)
Record Number := mkNumber {
  Number_toString : string;
}.

(** [FilterOptionValue = string | number]. *)
Inductive FilterOptionValue :=
| FOVString (s : string)
| FOVNumber (n : Number).

(** [value.toString()]: a string is returned as it is, a number is
    printed. *)
Definition toString (v : FilterOptionValue) : string :=
  match v with
  | FOVString s => s
  | FOVNumber n => Number_toString n
  end.

Record FilterOption := mkFilterOption {
  label : string;
  value : FilterOptionValue;
}.

#[global] Instance Number_eq_dec : EqDecision Number.
Proof. solve_decision. Defined.

#[global] Instance FilterOptionValue_eq_dec : EqDecision FilterOptionValue.
Proof. solve_decision. Defined.

#[global] Instance FilterOption_eq_dec : EqDecision FilterOption.
Proof. solve_decision. Defined.

#[global] Instance Model_eq_dec : EqDecision Model.
Proof. solve_decision. Defined.

(** ** [tagsFilter] *)

Definition tagsFilter (value : FilterOptionValue) (row : Model) : bool :=
  if JS.truthy (JS.indexOf (tags row) (toString value)) then false else true.

(** ** State of the page and the script's effects *)

(** Everything the script can reach and change while it runs: the array
    exported by [@/core/models] (a shared object, not a private copy), the
    [customModel] ref, the reactive [pagination] object, the heap of
    [FilterOption] object literals, and the two browser effects the script
    uses, [console.log] and [window.open]. *)
Record Env := mkEnv {
  modelData : list Model;
  customModel : string;
  pageSize : nat;
  heap : list FilterOption;
  console : list (list string);
  windows : list (string * string);
}.

Definition M (A : Type) : Type := Env -> A * Env.

#[global] Instance M_ret : MRet M := fun A (a : A) e => (a, e).

#[global] Instance M_bind : MBind M :=
  fun A B (k : A -> M B) (m : M A) e => let '(a, e') := m e in k a e'.

Definition exec {A} (m : M A) (e : Env) : Env := snd (m e).

Definition eval {A} (m : M A) (e : Env) : A := fst (m e).

(** Reading the imported array. *)
Definition get_modelData : M (list Model) := fun e => (modelData e, e).

(** An object literal [{ label: .., value: .. }]: a fresh heap object. *)
Definition alloc (o : FilterOption) : M JS.Ref :=
  fun e => (length (heap e),
            mkEnv (modelData e) (customModel e) (pageSize e)
                  (heap e ++ [o]) (console e) (windows e)).

(** [console.log(...args)]. *)
Definition console_log (args : list string) : M unit :=
  fun e => (tt,
            mkEnv (modelData e) (customModel e) (pageSize e)
                  (heap e) (console e ++ [args]) (windows e)).

(** [window.open(url, target)]; the returned window handle is dropped by
    the caller. *)
Definition window_open (url target : string) : M unit :=
  fun e => (tt,
            mkEnv (modelData e) (customModel e) (pageSize e)
                  (heap e) (console e) (windows e ++ [(url, target)])).

(** Assignment to [customModel.value]. *)
Definition set_customModel (text : string) : M unit :=
  fun e => (tt,
            mkEnv (modelData e) text (pageSize e)
                  (heap e) (console e) (windows e)).

(** [reactive({ pageSize: n })]. *)
Definition set_pageSize (n : nat) : M unit :=
  fun e => (tt,
            mkEnv (modelData e) (customModel e) n
                  (heap e) (console e) (windows e)).

(** [Array.prototype.forEach] with a callback that updates the local array
    [acc] the callback closes over. *)
Fixpoint forEach {A S} (l : list A) (f : A -> S -> M S) (acc : S) : M S :=
  match l with
  | [] => mret acc
  | x :: l' => acc' ← f x acc; forEach l' f acc'
  end.

(** ** [tagsFilterOptions] *)

(** The body of the inner callback: one literal is built for the
    [includes] test and, when the test fails, a second one is pushed. *)
Definition tagsFilterOptions_tag (tag : string) (tags : list JS.Ref)
  : M (list JS.Ref) :=
  probe ← alloc (mkFilterOption tag (FOVString tag));
  if negb (JS.includes tags probe)
  then o ← alloc (mkFilterOption tag (FOVString tag)); mret (tags ++ [o])
  else mret tags.

Definition tagsFilterOptions : M (list JS.Ref) :=
  models ← get_modelData;
  forEach models
    (fun model tags_ => forEach (tags model) tagsFilterOptions_tag tags_)
    [].

(** Reading the objects an array of references points to. *)
Definition deref (e : Env) (arr : list JS.Ref) : list (option FilterOption) :=
  map (fun r => heap e !! r) arr.

(** ** Virtual nodes built by the render functions *)

Inductive IconSize := small | medium | large.

(** The two icons imported from [@vicons/ionicons5]. *)
Inductive IconComponent := Home | Menu.

(** [h(NIcon, { size }, { default: () => h(icon) })]. *)
Record IconVNode := mkIcon {
  icon_size : IconSize;
  icon_component : IconComponent;
}.

(** An event handler is a piece of script run against the page state. *)
Definition Handler : Type := M unit.

(** Props of an [NButton]; a prop that is not passed is [None]. *)
Record ButtonProps := mkButtonProps {
  btn_type : option string;
  btn_secondary : option bool;
  btn_round : option bool;
  btn_block : option bool;
  btn_bordered : option bool;
  btn_onClick : option Handler;
}.

(** One entry of [DropdownMixedOption[]]. *)
Record DropdownOption := mkDropdownOption {
  opt_label : string;
  opt_key : string;
  opt_icon : IconVNode;
  opt_onClick : Handler;
}.

Inductive VNode :=
| h_NSpace (justify : option string) (children : list VNode)
| h_NTag (bordered : bool) (type : option string) (child : string)
| h_NImage (src : string) (height : nat) (fit : string) (lazy : bool)
| h_NButton (props : ButtonProps) (child : string)
| h_NDropdown (trigger : string) (options : list DropdownOption)
              (child : IconVNode).

(** ** Column descriptors ([DataTableColumns<Model>]) *)

(** The string ["default"] in the [sorter] position. *)
Inductive Sorter := sorter_default.

(** [filter] is either the string ["default"] or a predicate. *)
Inductive ColumnFilter :=
| filter_default
| filter_fn (f : FilterOptionValue -> Model -> bool).

Record Column := mkColumn {
  col_title : string;
  col_key : string;
  col_width : option nat;
  col_sorter : option Sorter;
  col_filterOptions : option (list JS.Ref);
  col_filter : option ColumnFilter;
  col_render : option (Model -> VNode);
}.

(** ** Reactive handles *)

(** What a binding of the script that holds an array of models can denote:
    the array imported from [@/core/models], which lives in the shared
    state; an array of the script's own, such as a literal or a copy; or
    [reactive(target)], a proxy that owns no copy of the array: reads go
    through to the target. *)
Inductive ArrayHandle :=
| imported_modelData
| own_array (rows : list Model)
| reactive (target : ArrayHandle).

Fixpoint array_read (a : ArrayHandle) : M (list Model) :=
  match a with
  | imported_modelData => get_modelData
  | own_array rows => mret rows
  | reactive target => array_read target
  end.

(** ** The template's widgets *)

Record NInputProps := mkNInputProps {
  input_value : string;
  input_placeholder : string;
  input_onUpdateValue : string -> Handler;
}.

Record NStepProps := mkNStepProps {
  step_title : string;
  step_description : string;
}.

Record NStepsProps := mkNStepsProps {
  steps_current : nat;
  steps_children : list NStepProps;
}.

(** Props of the [NDataTable]. The three update listeners are the hooks a
    table in remote mode reports sorting, filtering and paging through. *)
Record NDataTableProps := mkNDataTableProps {
  table_columns : list Column;
  table_data : list Model;
  table_pagination : nat;
  table_bordered : bool;
  table_remote : bool;
  table_onUpdateSorter : option (string -> Handler);
  table_onUpdateFilters : option (FilterOptionValue -> Handler);
  table_onUpdatePage : option (nat -> Handler);
}.

Record Template := mkTemplate {
  t_input : NInputProps;
  t_install : ButtonProps;
  t_install_text : string;
  t_steps_card_title : string;
  t_steps : NStepsProps;
  t_table : NDataTableProps;
}.

(** What the setup script leaves bound for the template. [customModel] and
    [pagination] live in [Env]. *)
Record Instance := mkInstance {
  columnsRef : list Column;
  dataRef : ArrayHandle;
}.

(** Who applies sorters and filters to the rows. *)
Inductive DataMode := client_side | remote_handler.

Definition data_mode (p : NDataTableProps) : DataMode :=
  if table_remote p then remote_handler else client_side.

(** ** What a user can do on the page *)

Inductive UserAction :=
| TypeCustomModel (text : string)
| ClickInstall
| ClickAccelerate (row : nat)
| OpenMenu (row : nat)
| ClickMenuOption (row : nat) (option : nat)
| TableSort (key : string)
| TableFilter (v : FilterOptionValue)
| TablePage (page : nat).

(** A click on a button runs its [onClick] listener, when it has one. *)
Definition click (onClick : option Handler) : M unit :=
  match onClick with
  | Some handler => handler
  | None => mret tt
  end.

(** An event of the table runs the listener bound to it, when there is
    one. *)
Definition emit {A} (listener : option (A -> Handler)) (a : A) : M unit :=
  match listener with
  | Some handler => handler a
  | None => mret tt
  end.

(** The cell of column [key] in the row of [row]: the column's [render]
    applied to the row. *)
Definition cell (columns : list Column) (key : string) (row : Model)
  : option VNode :=
  c ← find (fun c => bool_decide (col_key c = key)) columns;
  render ← col_render c;
  Some (render row).

Section AccelerateView.

(** The object [tagColor] exported by [@/core/models], as the map from its
    property names to their values; a name it does not have reads as
    [undefined], which is [None] here. *)
Variable tagColor : gmap string string.

(** The rows an [NDataTable] with the given props displays. The widget
    belongs to the toolkit, not to this file, so it is a parameter here.
    What is assumed of it is the meaning of its [remote] prop: a remote
    table displays the data it is given as it is, and leaves sorting,
    filtering and paging to its caller. *)
Variable NDataTable_rows : NDataTableProps -> list Model.

Hypothesis NDataTable_remote :
  forall p, table_remote p = true -> NDataTable_rows p = table_data p.

Definition getTagColor (tag : string) : option string := tagColor !! tag.

(** [renderIcon(icon, size = "medium")]; the returned thunk is modelled by
    the node it builds. *)
Definition renderIcon (icon : IconComponent) (size : option IconSize)
  : IconVNode :=
  mkIcon (default medium size) icon.

Definition getPluginOptions (row : Model) : list DropdownOption :=
  [ mkDropdownOption "Hugging Face" "github" (renderIcon Home None)
      (window_open (huggingface_url row) "_blank") ].

Definition createColumns2 : M (list Column) :=
  options ← tagsFilterOptions;
  mret
    [ mkColumn "Name" "name" None (Some sorter_default) None None None;
      mkColumn "Repository" "huggingface_id" None (Some sorter_default)
        None None None;
      mkColumn "Tags" "tags" None None (Some options)
        (Some (filter_fn tagsFilter))
        (Some (fun row =>
           h_NSpace None
             (map (fun tag => h_NTag true (getTagColor tag) tag)
                  (tags row))));
      mkColumn "Example" "example" None None None None
        (Some (fun row =>
           h_NSpace (Some "center")
             [h_NImage (example_image_url row) 64 "cover" true]));
      mkColumn "Acceelerate" "accelerate" None None None None
        (Some (fun row =>
           h_NButton
             (mkButtonProps (Some "primary") (Some true) (Some true)
                (Some true) (Some false)
                (Some (console_log ["Accelerate"; name row])))
             "Accelerate"));
      mkColumn "" "menu" (Some 60%nat) None None (Some filter_default)
        (Some (fun row =>
           h_NDropdown "hover" (getPluginOptions row)
             (renderIcon Menu None))) ].

(** The bindings of the setup script, in source order: [customModel],
    [columns], [columnsRef], [dataRef], [pagination]. *)
Definition setup : M Instance :=
  set_customModel "";;
  columns ← createColumns2;
  set_pageSize 10;;
  mret (mkInstance columns (reactive imported_modelData)).

(** The template, rendered against the current state. *)
Definition template (inst : Instance) (e : Env) : Template :=
  mkTemplate
    (mkNInputProps (customModel e) "Custom model" set_customModel)
    (mkButtonProps (Some "primary") (Some true) None None (Some true) None)
    "Install"
    "Acceleration progress"
    (mkNStepsProps 1
       [ mkNStepProps "Start"
           "Start the acceleration process by clicking the button next to the model";
         mkNStepProps "Convert to ONNX" "This process might take a while";
         mkNStepProps "Convert to TensorRT" "This process might take a while";
         mkNStepProps "Package and cleanup" "This process might take a while" ])
    (mkNDataTableProps (columnsRef inst) (eval (array_read (dataRef inst)) e)
       (pageSize e) true true None None None).

(** The listener a user action reaches, looked up in the rendered page. *)
Definition step (inst : Instance) (a : UserAction) : M unit :=
  fun e =>
    let t := template inst e in
    let table := t_table t in
    match a with
    | TypeCustomModel text => input_onUpdateValue (t_input t) text e
    | ClickInstall => click (btn_onClick (t_install t)) e
    | ClickAccelerate i =>
        match row ← table_data table !! i;
              cell (table_columns table) "accelerate" row with
        | Some (h_NButton props _) => click (btn_onClick props) e
        | _ => (tt, e)
        end
    | OpenMenu i => (tt, e)
    | ClickMenuOption i j =>
        match row ← table_data table !! i;
              cell (table_columns table) "menu" row with
        | Some (h_NDropdown _ options _) =>
            match options !! j with
            | Some o => opt_onClick o e
            | None => (tt, e)
            end
        | _ => (tt, e)
        end
    | TableSort key => emit (table_onUpdateSorter table) key e
    | TableFilter v => emit (table_onUpdateFilters table) v e
    | TablePage n => emit (table_onUpdatePage table) n e
    end.

Fixpoint run (inst : Instance) (actions : list UserAction) : M unit :=
  match actions with
  | [] => mret tt
  | a :: rest => step inst a;; run inst rest
  end.

(** The cells the table asks the columns for: every [render] applied to
    every row of the bound data. *)
Definition render_cells (inst : Instance) : M (list (list (option VNode))) :=
  rows ← array_read (dataRef inst);
  mret (map (fun row =>
               map (fun c => (fun render => render row) <$> col_render c)
                   (columnsRef inst))
            rows).

(** ** Vocabulary of the statements *)

(** [e'] differs from [e] at most in the heap of option literals. *)
Definition heap_only (e e' : Env) : Prop :=
  modelData e' = modelData e /\ customModel e' = customModel e /\
  pageSize e' = pageSize e /\ console e' = console e /\
  windows e' = windows e.

(** The option object the script builds for a tag. *)
Definition option_of_tag (tag : string) : FilterOption :=
  mkFilterOption tag (FOVString tag).

(** All tags of all models, in array order, with repetitions. *)
Definition all_tags (models : list Model) : list string :=
  flat_map tags models.

(** How many of the options read from the heap are the option of [tag]. *)
Definition count_option (tag : string) (l : list (option FilterOption))
  : nat :=
  length (filter (fun o => o = Some (option_of_tag tag)) l).

(** A page to evaluate the script on: two models that share a tag. *)
Definition sample_models : list Model :=
  [ mkModel "Stable Diffusion 1.5" "runwayml/stable-diffusion-v1-5"
      "https://huggingface.co/runwayml/stable-diffusion-v1-5"
      ["txt2img"; "img2img"] "https://example.org/sd15.png";
    mkModel "Anything V3" "Linaqruf/anything-v3.0"
      "https://huggingface.co/Linaqruf/anything-v3.0"
      ["anime"; "txt2img"] "https://example.org/anything.png" ].

Definition sample_env : Env := mkEnv sample_models "typed" 0 [] [] [].

Definition sample_tagColor : gmap string string :=
  <["txt2img" := "info"]> (<["anime" := "warning"]> ∅).

(** How often [tag] occurs in the tags of one model. *)
Definition occurrences (tag : string) (m : Model) : nat :=
  length (filter (fun t => t = tag) (tags m)).

(** The models that carry [tag]. *)
Definition carriers (tag : string) (models : list Model) : list Model :=
  filter (fun m => tag ∈ tags m) models.

(** The references [tagsFilterOptions] returns when it starts on a heap of
    [base] objects and meets [n] tags: every tag allocates two objects, and
    the second of each pair is the one pushed. *)
Definition pushed_refs (base n : nat) : list JS.Ref :=
  map (fun k => (base + 2 * k + 1)%nat) (seq 0 n).

(** The objects [tagsFilterOptions] allocates for a list of tags: the
    probe and the pushed option of each tag, in order. *)
Definition allocated (ts : list string) : list FilterOption :=
  flat_map (fun t => [option_of_tag t; option_of_tag t]) ts.

(** The console entries a sequence of user actions writes on a table
    showing [rows]. *)
Definition logged (rows : list Model) (actions : list UserAction)
  : list (list string) :=
  flat_map (fun a =>
              match a with
              | ClickAccelerate i =>
                  match rows !! i with
                  | Some row => [["Accelerate"; name row]]
                  | None => []
                  end
              | _ => []
              end)
           actions.

(** The browser tabs a sequence of user actions opens on a table showing
    [rows]. *)
Definition opened (rows : list Model) (actions : list UserAction)
  : list (string * string) :=
  flat_map (fun a =>
              match a with
              | ClickMenuOption i 0 =>
                  match rows !! i with
                  | Some row => [(huggingface_url row, "_blank")]
                  | None => []
                  end
              | _ => []
              end)
           actions.

(** The text typed last in a sequence of user actions, or [initial] when
    nothing was typed. *)
Definition typed_last (initial : string) (actions : list UserAction)
  : string :=
  foldl (fun cur a =>
           match a with
           | TypeCustomModel text => text
           | _ => cur
           end)
        initial actions.

(** The filter options a list of columns declares under [key]. *)
Definition filterOptions_of (columns : list Column) (key : string)
  : option (list JS.Ref) :=
  c ← find (fun c => bool_decide (col_key c = key)) columns;
  col_filterOptions c.

(** [e] with its heap replaced by [h]. *)
Definition set_heap (h : list FilterOption) (e : Env) : Env :=
  mkEnv (modelData e) (customModel e) (pageSize e) h (console e) (windows e).

(** A table widget to evaluate the page with: it displays its data as it
    is when it is remote, and the first page of it otherwise. *)
Definition first_page_rows (p : NDataTableProps) : list Model :=
  if table_remote p then table_data p
  else take (table_pagination p) (table_data p).

(** The first model of the sample page. *)
Definition sample_row : Model :=
  mkModel "Stable Diffusion 1.5" "runwayml/stable-diffusion-v1-5"
    "https://huggingface.co/runwayml/stable-diffusion-v1-5"
    ["txt2img"; "img2img"] "https://example.org/sd15.png".

(** * Properties *)

(** ** [tagsFilter] *)

Lemma indexOf_from_lower (l : list string) (x : string) (i : Z) :
  (0 <= i)%Z -> JS.indexOf_from l x i = (-1)%Z \/ (i <= JS.indexOf_from l x i)%Z.
Proof.
  revert i. induction l as [|y l IH]; intros i Hi; simpl; [by left|].
  destruct (decide (y = x)); [right; lia|].
  destruct (IH (i + 1)%Z) as [->|H]; [lia|by left|right; lia].
Qed.

(** [indexOf] answers [0] exactly when the value is the first element. *)
Lemma indexOf_zero_iff_head (l : list string) (x : string) :
  JS.indexOf l x = 0%Z <-> head l = Some x.
Proof.
  unfold JS.indexOf. destruct l as [|y l]; simpl; [split; discriminate|].
  destruct (decide (y = x)) as [->|Hne]; [done|].
  split; [|intros [= ?]; congruence].
  intros H0. destruct (indexOf_from_lower l x 1%Z) as [H|H]; [lia| |];
    change (0 + 1)%Z with 1%Z in H0; lia.
Qed.

(** What the predicate computes: it accepts a row exactly when the chosen
    value is the row's first tag. *)
Lemma tagsFilter_true_iff_head (v : FilterOptionValue) (row : Model) :
  tagsFilter v row = true <-> head (tags row) = Some (toString v).
Proof.
  rewrite <- indexOf_zero_iff_head. unfold tagsFilter, JS.truthy.
  destruct (Z.eqb_spec (JS.indexOf (tags row) (toString v)) 0); simpl;
    split; congruence.
Qed.

(** C1, evaluated on the code: a row tagged [a, b] carries the tag [b],
    yet [tagsFilter] rejects it for [b] (and accepts it for [a]): the
    index [1] returned by [indexOf] is read as a truthy condition. *)
Theorem tagsFilter_rejects_tag_past_first :
  let row := mkModel "m" "org/m" "https://huggingface.co/org/m" ["a"; "b"]
                     "https://example.org/m.png" in
  "b" ∈ tags row /\
  JS.indexOf (tags row) (toString (FOVString "b")) = 1%Z /\
  tagsFilter (FOVString "b") row = false /\
  tagsFilter (FOVString "a") row = true.
Proof.
  simpl. split; [|by vm_compute].
  apply list_elem_of_In. simpl. tauto.
Qed.

(** ** [tagsFilterOptions] *)

Lemma heap_only_refl (e : Env) : heap_only e e.
Proof. by repeat split. Qed.

Lemma heap_only_trans (e1 e2 e3 : Env) :
  heap_only e1 e2 -> heap_only e2 e3 -> heap_only e1 e3.
Proof.
  unfold heap_only. intros (?&?&?&?&?) (?&?&?&?&?).
  repeat split; congruence.
Qed.

(** A reference that reads as an object lies inside the heap. *)
Lemma deref_valid (e : Env) (acc : list JS.Ref) (objs : list FilterOption)
      (r : JS.Ref) :
  deref e acc = map Some objs -> r ∈ acc -> (r < length (heap e))%nat.
Proof.
  unfold deref. revert objs.
  induction acc as [|a acc IH]; intros objs Heq Hin; [by inversion Hin|].
  destruct objs as [|o objs]; [discriminate|]. simpl in Heq.
  injection Heq as Ha Hrest.
  apply elem_of_cons in Hin as [->|Hin]; [|by eapply IH].
  by eapply lookup_lt_Some.
Qed.

(** Allocation never changes what older references read. *)
Lemma deref_grow (e e' : Env) (acc : list JS.Ref) (objs extra : list FilterOption) :
  heap e' = heap e ++ extra ->
  deref e acc = map Some objs -> deref e' acc = map Some objs.
Proof.
  intros Hheap Heq. rewrite <- Heq. unfold deref. apply map_ext_in.
  intros r Hr. rewrite Hheap. apply lookup_app_l.
  eapply deref_valid; [exact Heq|]. by apply list_elem_of_In.
Qed.

(** One round of the inner callback: the probe literal is a new object, so
    the [includes] test fails and a second new object is pushed. *)
Lemma tagsFilterOptions_tag_spec (tag : string) (acc : list JS.Ref) (e : Env)
      (objs : list FilterOption) :
  deref e acc = map Some objs ->
  exists e',
    tagsFilterOptions_tag tag acc e = (acc ++ [S (length (heap e))], e') /\
    heap e' = heap e ++ [option_of_tag tag; option_of_tag tag] /\
    heap_only e e'.
Proof.
  intros Hacc. unfold tagsFilterOptions_tag, mbind, M_bind, alloc. simpl.
  assert (Hfresh : JS.includes acc (length (heap e)) = false).
  { unfold JS.includes. apply bool_decide_eq_false. intros Hin.
    pose proof (deref_valid _ _ _ _ Hacc Hin). lia. }
  rewrite Hfresh. simpl. rewrite length_app. simpl.
  replace (length (heap e) + 1)%nat with (S (length (heap e))) by lia.
  eexists. split; [reflexivity|]. simpl. split.
  - by rewrite <- app_assoc.
  - by repeat split.
Qed.

Lemma forEach_tags_spec (ts : list string) (acc : list JS.Ref) (e : Env)
      (objs : list FilterOption) :
  deref e acc = map Some objs -> NoDup acc ->
  exists acc' e' extra,
    forEach ts tagsFilterOptions_tag acc e = (acc', e') /\
    heap e' = heap e ++ extra /\ heap_only e e' /\
    deref e' acc' = map Some (objs ++ map option_of_tag ts) /\
    NoDup acc'.
Proof.
  revert acc e objs. induction ts as [|t ts IH]; intros acc e objs Hacc Hnd.
  - exists acc, e, []. rewrite !app_nil_r. simpl.
    repeat split; auto using heap_only_refl.
  - destruct (tagsFilterOptions_tag_spec t acc e objs Hacc)
      as (e1 & Hrun & Hheap & Hframe).
    assert (Hacc1 : deref e1 (acc ++ [S (length (heap e))])
                    = map Some (objs ++ [option_of_tag t])).
    { unfold deref. rewrite !map_app. f_equal.
      - eapply deref_grow; eauto.
      - simpl. f_equal. rewrite Hheap.
        rewrite lookup_app_r by lia.
        by replace (S (length (heap e)) - length (heap e))%nat with 1%nat by lia. }
    assert (Hnd1 : NoDup (acc ++ [S (length (heap e))])).
    { apply NoDup_app. split; [done|]. split; [|apply NoDup_singleton].
      intros r Hr Hr'. apply list_elem_of_singleton in Hr'. subst r.
      pose proof (deref_valid _ _ _ _ Hacc Hr). lia. }
    destruct (IH _ e1 _ Hacc1 Hnd1) as (acc' & e' & extra & Hrun' & Hheap' & Hframe' & Hd & Hnd').
    exists acc', e', ([option_of_tag t; option_of_tag t] ++ extra).
    split.
    { simpl. unfold mbind, M_bind. by rewrite Hrun. }
    split; [by rewrite Hheap', Hheap, <- app_assoc|].
    split; [by eapply heap_only_trans|].
    split; [|done]. rewrite Hd. by rewrite <- app_assoc.
Qed.

Lemma forEach_models_spec (models : list Model) (acc : list JS.Ref) (e : Env)
      (objs : list FilterOption) :
  deref e acc = map Some objs -> NoDup acc ->
  exists acc' e' extra,
    forEach models
      (fun model tags_ => forEach (tags model) tagsFilterOptions_tag tags_)
      acc e = (acc', e') /\
    heap e' = heap e ++ extra /\ heap_only e e' /\
    deref e' acc' = map Some (objs ++ map option_of_tag (all_tags models)) /\
    NoDup acc'.
Proof.
  revert acc e objs.
  induction models as [|m models IH]; intros acc e objs Hacc Hnd.
  - exists acc, e, []. rewrite !app_nil_r. simpl.
    repeat split; auto using heap_only_refl.
  - destruct (forEach_tags_spec (tags m) acc e objs Hacc Hnd)
      as (acc1 & e1 & extra1 & Hrun & Hheap & Hframe & Hd & Hnd1).
    destruct (IH _ e1 _ Hd Hnd1)
      as (acc' & e' & extra & Hrun' & Hheap' & Hframe' & Hd' & Hnd').
    exists acc', e', (extra1 ++ extra). split.
    { simpl. unfold mbind, M_bind. by rewrite Hrun. }
    split; [by rewrite Hheap', Hheap, <- app_assoc|].
    split; [by eapply heap_only_trans|].
    split; [|done]. rewrite Hd'. unfold all_tags. simpl.
    f_equal. by rewrite (map_app option_of_tag), app_assoc.
Qed.

(** What [tagsFilterOptions] returns and what it leaves behind. *)
Lemma tagsFilterOptions_spec (e : Env) :
  exists refs e' extra,
    tagsFilterOptions e = (refs, e') /\
    heap e' = heap e ++ extra /\ heap_only e e' /\
    deref e' refs = map Some (map option_of_tag (all_tags (modelData e))) /\
    NoDup refs.
Proof.
  destruct (forEach_models_spec (modelData e) [] e [] eq_refl (NoDup_nil_2))
    as (refs & e' & extra & Hrun & H).
  exists refs, e', extra. split; [|exact H].
  unfold tagsFilterOptions, mbind, M_bind, get_modelData. exact Hrun.
Qed.

Lemma count_option_tags (tag : string) (ts : list string) :
  count_option tag (map Some (map option_of_tag ts))
  = length (filter (fun t => t = tag) ts).
Proof.
  unfold count_option. induction ts as [|t ts IH]; [done|]. simpl.
  rewrite !filter_cons. destruct (decide (t = tag)) as [->|Hne].
  - rewrite decide_True by done. simpl. by rewrite IH.
  - rewrite decide_False; [done|]. unfold option_of_tag. congruence.
Qed.

Lemma filter_all_tags (tag : string) (models : list Model) :
  length (filter (fun t => t = tag) (all_tags models))
  = sum_list (map (occurrences tag) models).
Proof.
  unfold all_tags. induction models as [|m models IH]; [done|]. simpl.
  by rewrite filter_app, length_app, IH.
Qed.

Lemma length_all_tags (models : list Model) :
  length (all_tags models) = sum_list (map (fun m => length (tags m)) models).
Proof.
  unfold all_tags. induction models as [|m models IH]; [done|]. simpl.
  by rewrite length_app, IH.
Qed.

(** In an array without repetitions a value occurs once or not at all. *)
Lemma filter_eq_NoDup (tag : string) (ts : list string) :
  NoDup ts ->
  length (filter (fun t => t = tag) ts) = if decide (tag ∈ ts) then 1%nat else 0%nat.
Proof.
  induction 1 as [|t ts Hnotin Hnd IH]; [done|].
  rewrite filter_cons. destruct (decide (t = tag)) as [->|Hne].
  - rewrite decide_True by (by left). simpl. rewrite IH.
    by rewrite decide_False.
  - rewrite IH. destruct (decide (tag ∈ ts)) as [Hin|Hout].
    + rewrite decide_True; [done|]. by right.
    + rewrite decide_False; [done|]. intros Hin.
      apply elem_of_cons in Hin as [?|?]; congruence.
Qed.

Lemma occurrences_carriers (tag : string) (models : list Model) :
  Forall (fun m => NoDup (tags m)) models ->
  sum_list (map (occurrences tag) models) = length (carriers tag models).
Proof.
  unfold carriers. induction 1 as [|m models Hm _ IH]; [done|]. simpl.
  rewrite filter_cons, IH. unfold occurrences at 1.
  rewrite (filter_eq_NoDup tag (tags m) Hm).
  by destruct (decide (tag ∈ tags m)).
Qed.

(** C9: [tagsFilterOptions] returns one option per (model, tag)
    occurrence. The options read back are exactly the tags of all models
    in order, the returned references are pairwise distinct objects, their
    number is the sum of [tags.length] over the models, each tag appears as
    often as it occurs, and when no model repeats a tag, a tag carried by
    [k] models appears [k] times. *)
Theorem tagsFilterOptions_one_per_occurrence (e : Env) :
  let refs := eval tagsFilterOptions e in
  let options := deref (exec tagsFilterOptions e) refs in
  options = map (fun t => Some (option_of_tag t)) (all_tags (modelData e)) /\
  NoDup refs /\
  length refs = sum_list (map (fun m => length (tags m)) (modelData e)) /\
  (forall tag,
     count_option tag options
     = sum_list (map (occurrences tag) (modelData e))) /\
  (forall tag,
     Forall (fun m => NoDup (tags m)) (modelData e) ->
     count_option tag options = length (carriers tag (modelData e))).
Proof.
  destruct (tagsFilterOptions_spec e)
    as (refs & e' & extra & Hrun & _ & _ & Hd & Hnd).
  unfold eval, exec. rewrite Hrun. simpl.
  assert (Hcount : forall tag,
             count_option tag (deref e' refs)
             = sum_list (map (occurrences tag) (modelData e))).
  { intros tag. by rewrite Hd, count_option_tags, filter_all_tags. }
  split; [by rewrite Hd, map_map|].
  split; [done|].
  split.
  { rewrite <- length_all_tags.
    apply (f_equal length) in Hd. unfold deref in Hd.
    by rewrite !length_map in Hd. }
  split; [done|].
  intros tag Hnodup. rewrite Hcount. by apply occurrences_carriers.
Qed.

(** ** Column descriptors and the setup script *)

(** Building the columns allocates the filter options and nothing else. *)
Lemma createColumns2_heap_only (e : Env) :
  heap_only e (exec createColumns2 e).
Proof.
  destruct (tagsFilterOptions_spec e) as (refs & e' & extra & Hrun & _ & H & _).
  unfold exec, createColumns2, mbind, M_bind. by rewrite Hrun.
Qed.

Lemma createColumns2_accelerate_cell (e : Env) (row : Model) :
  cell (eval createColumns2 e) "accelerate" row
  = Some (h_NButton
            (mkButtonProps (Some "primary") (Some true) (Some true)
               (Some true) (Some false)
               (Some (console_log ["Accelerate"; name row])))
            "Accelerate").
Proof.
  unfold eval, createColumns2, mbind, M_bind.
  by destruct (tagsFilterOptions e).
Qed.

Lemma createColumns2_menu_cell (e : Env) (row : Model) :
  cell (eval createColumns2 e) "menu" row
  = Some (h_NDropdown "hover" (getPluginOptions row) (renderIcon Menu None)).
Proof.
  unfold eval, createColumns2, mbind, M_bind.
  by destruct (tagsFilterOptions e).
Qed.

Lemma createColumns2_tags_cell (e : Env) (row : Model) :
  cell (eval createColumns2 e) "tags" row
  = Some (h_NSpace None
            (map (fun tag => h_NTag true (getTagColor tag) tag) (tags row))).
Proof.
  unfold eval, createColumns2, mbind, M_bind.
  by destruct (tagsFilterOptions e).
Qed.

Lemma setup_columnsRef (e : Env) :
  columnsRef (eval setup e)
  = eval createColumns2 (exec (set_customModel "") e).
Proof.
  unfold eval, exec, setup, mbind, M_bind. simpl.
  by destruct (createColumns2 _).
Qed.

Lemma setup_dataRef (e : Env) :
  dataRef (eval setup e) = reactive imported_modelData.
Proof.
  unfold eval, setup, mbind, M_bind. simpl.
  by destruct (createColumns2 _).
Qed.

(** The state the setup script leaves: the imported array as it was,
    [customModel] empty, a page size of 10, no output. *)
Lemma setup_env (e : Env) :
  modelData (exec setup e) = modelData e /\
  customModel (exec setup e) = "" /\
  pageSize (exec setup e) = 10%nat /\
  console (exec setup e) = console e /\
  windows (exec setup e) = windows e.
Proof.
  pose proof (createColumns2_heap_only (exec (set_customModel "") e)) as H.
  unfold exec, setup, mbind, M_bind in *. simpl in *.
  destruct (createColumns2 _) as [cols e1]. simpl in *.
  destruct H as (?&?&?&?&?). by repeat split.
Qed.

(** The table is bound to the imported array itself. *)
Lemma template_table_data (e0 e : Env) :
  table_data (t_table (template (eval setup e0) e)) = modelData e.
Proof. unfold template. simpl. by rewrite setup_dataRef. Qed.

(** What each user action runs, on the page the setup script built. *)
Lemma step_setup (e0 e : Env) (a : UserAction) :
  step (eval setup e0) a e =
  match a with
  | TypeCustomModel text => set_customModel text e
  | ClickAccelerate i =>
      match modelData e !! i with
      | Some row => console_log ["Accelerate"; name row] e
      | None => (tt, e)
      end
  | ClickMenuOption i 0 =>
      match modelData e !! i with
      | Some row => window_open (huggingface_url row) "_blank" e
      | None => (tt, e)
      end
  | _ => (tt, e)
  end.
Proof.
  unfold step. rewrite template_table_data.
  destruct a as [text| |i|i|i j|key|v|n]; try reflexivity.
  - destruct (modelData e !! i) as [row|]; [|reflexivity]. simpl.
    by rewrite setup_columnsRef, createColumns2_accelerate_cell.
  - destruct (modelData e !! i) as [row|]; [|by destruct j]. simpl.
    rewrite setup_columnsRef, createColumns2_menu_cell.
    by destruct j as [|[|j]].
Qed.

(** ** Frame properties of the user actions *)

(** No action touches the imported array, the page size or the heap. *)
Lemma step_frame (e0 e : Env) (a : UserAction) :
  let e' := exec (step (eval setup e0) a) e in
  modelData e' = modelData e /\ pageSize e' = pageSize e /\ heap e' = heap e.
Proof.
  unfold exec. rewrite step_setup.
  destruct a as [text| |i|i|i j|key|v|n]; simpl; try done.
  - by destruct (modelData e !! i).
  - destruct j; [|done]. by destruct (modelData e !! i).
Qed.

Lemma run_frame (e0 : Env) (actions : list UserAction) (e : Env) :
  let e' := exec (run (eval setup e0) actions) e in
  modelData e' = modelData e /\ pageSize e' = pageSize e /\ heap e' = heap e.
Proof.
  revert e. induction actions as [|a actions IH]; intros e; [done|].
  pose proof (step_frame e0 e a) as Hstep. simpl in *.
  unfold exec, mbind, M_bind in *.
  destruct (step (eval setup e0) a e) as [[] e1]. simpl in Hstep.
  specialize (IH e1). simpl in IH. destruct Hstep as (?&?&?), IH as (?&?&?).
  repeat split; congruence.
Qed.

Lemma render_cells_pure (inst : Instance) (e : Env) :
  exec (render_cells inst) e = e.
Proof.
  unfold exec, render_cells, mbind, M_bind.
  assert (H : forall a, snd (array_read a e) = e) by (induction a; auto).
  specialize (H (dataRef inst)). by destruct (array_read (dataRef inst) e).
Qed.

Lemma render_cells_rows (e0 e : Env) :
  length (eval (render_cells (eval setup e0)) e) = length (modelData e).
Proof.
  unfold render_cells, mbind, M_bind. rewrite setup_dataRef.
  unfold eval at 1. simpl. by rewrite length_map.
Qed.

(** C2: the table is bound to the imported [modelData] itself: [dataRef]
    is a proxy of that array and of no other, so in whatever state the
    page is rendered the data of the table is the imported array as it is
    then, and in the state the setup script leaves and after any user
    actions it is the imported array element for element. The table being
    remote, the rows it displays are these records, one row per record in
    array order, and the cells are the columns' renders of these rows. *)
Theorem table_data_is_modelData (e0 : Env) (actions : list UserAction) :
  let inst := eval setup e0 in
  let e := exec (run inst actions) (exec setup e0) in
  let table := t_table (template inst e) in
  let data := table_data table in
  dataRef inst = reactive imported_modelData /\
  (forall e', table_data (t_table (template inst e')) = modelData e') /\
  data = modelData e /\
  data = modelData e0 /\
  (forall i, data !! i = modelData e0 !! i) /\
  NDataTable_rows table = modelData e0 /\
  eval (render_cells inst) e
  = map (fun row =>
           map (fun c => (fun render => render row) <$> col_render c)
               (columnsRef inst))
        (NDataTable_rows table) /\
  length (eval (render_cells inst) e) = length (modelData e0).
Proof.
  cbv zeta. rewrite NDataTable_remote by reflexivity.
  rewrite template_table_data, render_cells_rows.
  destruct (run_frame e0 actions (exec setup e0)) as (Hrun & _).
  destruct (setup_env e0) as (Hsetup & _). simpl in Hrun.
  rewrite Hrun, Hsetup.
  split; [apply setup_dataRef|].
  split; [intros e'; apply template_table_data|].
  do 4 (split; [reflexivity|]). split; [|reflexivity].
  unfold render_cells, mbind, M_bind. rewrite setup_dataRef.
  unfold eval at 1. simpl. by rewrite Hrun, Hsetup.
Qed.

(** C3, as amended: the table is put in remote mode and no listener for
    sorting, filtering or paging is bound, so these events of the table
    change nothing in this file; the columns still declare the default
    sorter on [name] and [huggingface_id] and [tagsFilter] on [tags], and
    the tags column, and no other, declares as filter options the array
    [tagsFilterOptions()] returned when the columns were built, which
    reads as the options of all tags of the models. *)
Theorem table_is_remote (e0 e : Env) :
  let inst := eval setup e0 in
  let table := t_table (template inst e) in
  table_remote table = true /\
  data_mode table = remote_handler /\
  table_onUpdateSorter table = None /\
  table_onUpdateFilters table = None /\
  table_onUpdatePage table = None /\
  map (fun c => (col_key c, col_sorter c)) (table_columns table)
  = [ ("name", Some sorter_default);
      ("huggingface_id", Some sorter_default);
      ("tags", None); ("example", None); ("accelerate", None);
      ("menu", None) ] /\
  map (fun c => (col_key c, col_filter c)) (table_columns table)
  = [ ("name", None); ("huggingface_id", None);
      ("tags", Some (filter_fn tagsFilter)); ("example", None);
      ("accelerate", None); ("menu", Some filter_default) ] /\
  map (fun c => (col_key c, col_filterOptions c)) (table_columns table)
  = [ ("name", None); ("huggingface_id", None);
      ("tags", Some (eval tagsFilterOptions (exec (set_customModel "") e0)));
      ("example", None); ("accelerate", None); ("menu", None) ] /\
  deref (exec setup e0)
        (eval tagsFilterOptions (exec (set_customModel "") e0))
  = map (fun t => Some (option_of_tag t)) (all_tags (modelData e0)) /\
  (forall key, step inst (TableSort key) e = (tt, e)) /\
  (forall v, step inst (TableFilter v) e = (tt, e)) /\
  (forall n, step inst (TablePage n) e = (tt, e)).
Proof.
  cbv zeta. repeat (split; [reflexivity|]).
  unfold template. cbn [t_table table_columns]. rewrite setup_columnsRef.
  assert (Hread : deref (exec setup e0)
                    (eval tagsFilterOptions (exec (set_customModel "") e0))
                  = map (fun t => Some (option_of_tag t))
                        (all_tags (modelData e0))).
  { destruct (tagsFilterOptions_spec (exec (set_customModel "") e0))
      as (refs & e1 & extra & Hrun & _ & _ & Hd & _).
    unfold eval, exec, setup, createColumns2, mbind, M_bind. simpl.
    unfold exec in Hrun. simpl in Hrun. rewrite Hrun. simpl.
    unfold deref in *. simpl. rewrite Hd. by rewrite map_map. }
  revert Hread.
  unfold eval, createColumns2, mbind, M_bind.
  destruct (tagsFilterOptions _). intros Hread. by repeat split.
Qed.

(** C4: a click on the Accelerate button of a row of the table runs one
    [console.log("Accelerate", row.name)] and changes nothing else: the
    state differs only by that one console entry, and the page renders as
    before. *)
Theorem accelerate_click_logs_once (e0 e : Env) (i : nat) (row : Model) :
  modelData e !! i = Some row ->
  let inst := eval setup e0 in
  step inst (ClickAccelerate i) e
  = (tt, mkEnv (modelData e) (customModel e) (pageSize e) (heap e)
               (console e ++ [["Accelerate"; name row]]) (windows e)) /\
  template inst (exec (step inst (ClickAccelerate i)) e) = template inst e /\
  exists props,
    cell (columnsRef inst) "accelerate" row = Some (h_NButton props "Accelerate") /\
    btn_onClick props = Some (console_log ["Accelerate"; name row]).
Proof.
  intros Hrow. cbv zeta. unfold exec. rewrite step_setup, Hrow.
  split; [done|]. split.
  - unfold template. simpl. by rewrite setup_dataRef.
  - rewrite setup_columnsRef, createColumns2_accelerate_cell. by eexists.
Qed.

(** C5: the progress indicator does not depend on the state: whatever the
    user did, it shows the four steps Start, Convert to ONNX, Convert to
    TensorRT, Package and cleanup, in this order, with current step 1. *)
Theorem steps_static (inst : Instance) (e : Env) (actions : list UserAction) :
  let steps := t_steps (template inst (exec (run inst actions) e)) in
  steps_current steps = 1%nat /\
  length (steps_children steps) = 4%nat /\
  map step_title (steps_children steps)
  = ["Start"; "Convert to ONNX"; "Convert to TensorRT"; "Package and cleanup"] /\
  steps = t_steps (template inst e).
Proof. by repeat split. Qed.

(** C6: the cell of the tags column holds one tag node per tag of the row,
    in order, and the display type of each is [tagColor[tag]]. *)
Theorem tags_cell_colors (e0 : Env) (row : Model) :
  let inst := eval setup e0 in
  exists children,
    cell (columnsRef inst) "tags" row = Some (h_NSpace None children) /\
    children = map (fun tag => h_NTag true (tagColor !! tag) tag) (tags row) /\
    Forall2 (fun tag node => node = h_NTag true (tagColor !! tag) tag)
            (tags row) children.
Proof.
  cbv zeta. rewrite setup_columnsRef, createColumns2_tags_cell.
  eexists. split; [reflexivity|]. split; [reflexivity|].
  unfold getTagColor. induction (tags row); constructor; auto.
Qed.

(** C7: nothing in the file changes the imported array: not building the
    filter options or the columns, not the setup script, not rendering the
    cells, and no sequence of user actions. *)
Theorem modelData_never_changed (e0 : Env) (actions : list UserAction) :
  let inst := eval setup e0 in
  modelData (exec tagsFilterOptions e0) = modelData e0 /\
  modelData (exec createColumns2 e0) = modelData e0 /\
  modelData (exec setup e0) = modelData e0 /\
  (forall e, exec (render_cells inst) e = e) /\
  (forall e, modelData (exec (run inst actions) e) = modelData e) /\
  modelData (exec (run inst actions) (exec setup e0)) = modelData e0.
Proof.
  cbv zeta. split.
  { destruct (tagsFilterOptions_spec e0) as (r & e' & x & Hrun & _ & H & _).
    unfold exec. rewrite Hrun. apply H. }
  split; [apply createColumns2_heap_only|].
  split; [apply setup_env|].
  split; [intros e; apply render_cells_pure|].
  split; [intros e; apply (run_frame e0 actions e)|].
  destruct (run_frame e0 actions (exec setup e0)) as (H & _). simpl in H.
  rewrite H. apply setup_env.
Qed.

(** C8: the dropdown of a row offers exactly one option, labelled
    Hugging Face, and its click opens [row.huggingface_url] in a new tab
    and does nothing else. *)
Theorem getPluginOptions_single_option (e0 : Env) (row : Model) :
  exists o,
    getPluginOptions row = [o] /\
    opt_label o = "Hugging Face" /\
    (forall e,
       opt_onClick o e
       = (tt, mkEnv (modelData e) (customModel e) (pageSize e) (heap e)
                    (console e)
                    (windows e ++ [(huggingface_url row, "_blank")]))) /\
    cell (columnsRef (eval setup e0)) "menu" row
    = Some (h_NDropdown "hover" [o] (renderIcon Menu None)).
Proof.
  eexists. split; [reflexivity|]. split; [reflexivity|]. split; [done|].
  by rewrite setup_columnsRef, createColumns2_menu_cell.
Qed.

(** ** [customModel] and the Install button *)

Lemma tagsFilterOptions_tag_customModel (x tag : string) (acc : list JS.Ref)
      (e : Env) :
  tagsFilterOptions_tag tag acc (exec (set_customModel x) e)
  = let '(r, e') := tagsFilterOptions_tag tag acc e in
    (r, exec (set_customModel x) e').
Proof.
  unfold tagsFilterOptions_tag, mbind, M_bind, alloc, exec. simpl.
  by destruct (JS.includes acc (length (heap e))).
Qed.

(** A loop whose body does not look at [customModel] does not either. *)
Lemma forEach_customModel {A S} (f : A -> S -> M S) (x : string) :
  (forall a s e,
     f a s (exec (set_customModel x) e)
     = let '(r, e') := f a s e in (r, exec (set_customModel x) e')) ->
  forall l acc e,
    forEach l f acc (exec (set_customModel x) e)
    = let '(r, e') := forEach l f acc e in (r, exec (set_customModel x) e').
Proof.
  intros Hf. induction l as [|a l IH]; intros acc e; [done|]. simpl.
  unfold mbind, M_bind. rewrite Hf. destruct (f a acc e) as [acc1 e1].
  apply IH.
Qed.

Lemma tagsFilterOptions_customModel (x : string) (e : Env) :
  tagsFilterOptions (exec (set_customModel x) e)
  = let '(r, e') := tagsFilterOptions e in (r, exec (set_customModel x) e').
Proof.
  unfold tagsFilterOptions, mbind, M_bind, get_modelData.
  change (modelData (exec (set_customModel x) e)) with (modelData e).
  apply forEach_customModel. intros m s e1.
  apply forEach_customModel, tagsFilterOptions_tag_customModel.
Qed.

(** C10: the Install button carries no click listener, so a click on it
    leaves the state as it is; typing into the input writes [customModel]
    and nothing else; [customModel] starts as the empty string; and apart
    from the input's own value nothing reads it: the rest of the page, the
    filter options, the columns, the cells and every other user action come
    out the same whatever it holds. *)
Theorem install_inert_customModel_local
        (e0 e : Env) (text : string) (a : UserAction) :
  let inst := eval setup e0 in
  let typed := exec (set_customModel text) in
  btn_onClick (t_install (template inst e)) = None /\
  step inst ClickInstall e = (tt, e) /\
  step inst (TypeCustomModel text) e
  = (tt, mkEnv (modelData e) text (pageSize e) (heap e) (console e)
               (windows e)) /\
  customModel (exec setup e0) = "" /\
  input_value (t_input (template inst e)) = customModel e /\
  t_install (template inst (typed e)) = t_install (template inst e) /\
  t_steps (template inst (typed e)) = t_steps (template inst e) /\
  t_table (template inst (typed e)) = t_table (template inst e) /\
  eval tagsFilterOptions (typed e) = eval tagsFilterOptions e /\
  eval createColumns2 (typed e) = eval createColumns2 e /\
  eval (render_cells inst) (typed e) = eval (render_cells inst) e /\
  match a with
  | TypeCustomModel _ => True
  | _ => step inst a (typed e) = (tt, typed (exec (step inst a) e))
  end.
Proof.
  cbv zeta.
  assert (Hopts : eval tagsFilterOptions (exec (set_customModel text) e)
                  = eval tagsFilterOptions e).
  { unfold eval. rewrite tagsFilterOptions_customModel.
    by destruct (tagsFilterOptions e). }
  split; [reflexivity|]. split; [reflexivity|]. split; [reflexivity|].
  split; [apply setup_env|]. split; [reflexivity|].
  split; [reflexivity|]. split; [reflexivity|].
  split; [unfold template; simpl; by rewrite setup_dataRef|].
  split; [exact Hopts|].
  split.
  { unfold eval, createColumns2, mbind, M_bind.
    rewrite tagsFilterOptions_customModel.
    by destruct (tagsFilterOptions e). }
  split.
  { unfold render_cells, mbind, M_bind. rewrite setup_dataRef.
    reflexivity. }
  unfold exec. rewrite !step_setup.
  destruct a as [t| |i|i|i j|key|v|n]; try done.
  - change (modelData (set_customModel text e).2) with (modelData e).
    by destruct (modelData e !! i).
  - destruct j; [|done].
    change (modelData (set_customModel text e).2) with (modelData e).
    by destruct (modelData e !! i).
Qed.

(** * Further properties of the script *)

(** ** [tagsFilter] on arbitrary rows *)

Lemma indexOf_from_absent (l : list string) (x : string) (i : Z) :
  x ∉ l -> JS.indexOf_from l x i = (-1)%Z.
Proof.
  revert i. induction l as [|y l IH]; intros i Hx; [done|]. simpl.
  apply not_elem_of_cons in Hx as [Hne Hx].
  rewrite decide_False by congruence. by apply IH.
Qed.

(** X1: [tagsFilter] accepts a row exactly when the chosen value, printed
    as a string, is the first tag of the row; a row without tags is
    rejected for every value. *)
Theorem tagsFilter_accepts_first_tag_only (v : FilterOptionValue) (row : Model) :
  (tagsFilter v row = true <-> tags row !! 0%nat = Some (toString v)) /\
  (tags row = [] -> tagsFilter v row = false).
Proof.
  split.
  - rewrite tagsFilter_true_iff_head. by destruct (tags row).
  - intros Hnil. unfold tagsFilter. by rewrite Hnil.
Qed.

(** X2: [tagsFilter] never accepts a row that lacks the chosen tag: when
    the value is not among the row's tags, [indexOf] answers [-1] and the
    row is rejected. *)
Theorem tagsFilter_rejects_absent_tag (v : FilterOptionValue) (row : Model) :
  toString v ∉ tags row ->
  JS.indexOf (tags row) (toString v) = (-1)%Z /\ tagsFilter v row = false.
Proof.
  intros Habsent. unfold tagsFilter, JS.indexOf.
  by rewrite (indexOf_from_absent _ _ _ Habsent).
Qed.

(** ** The filter options and the models *)

Lemma elem_of_all_tags (tag : string) (models : list Model) :
  tag ∈ all_tags models <-> exists m, m ∈ models /\ tag ∈ tags m.
Proof.
  unfold all_tags. rewrite list_elem_of_In, in_flat_map. split.
  - intros (m & Hm & Ht). exists m. by rewrite !list_elem_of_In.
  - intros (m & Hm & Ht). exists m. by rewrite <- !list_elem_of_In.
Qed.

Lemma offered_options_read (e : Env) :
  deref (exec tagsFilterOptions e) (eval tagsFilterOptions e)
  = map Some (map option_of_tag (all_tags (modelData e))).
Proof.
  destruct (tagsFilterOptions_spec e)
    as (refs & e' & extra & Hrun & _ & _ & Hd & _).
  unfold eval, exec. by rewrite Hrun.
Qed.

Lemma offered_options_iff (e : Env) (o : FilterOption) :
  Some o ∈ deref (exec tagsFilterOptions e) (eval tagsFilterOptions e) <->
  exists m tag, m ∈ modelData e /\ tag ∈ tags m /\ o = option_of_tag tag.
Proof.
  rewrite offered_options_read, list_elem_of_In, in_map_iff. split.
  - intros (o' & [= ->] & Ho). apply in_map_iff in Ho as (t & <- & Ht).
    apply list_elem_of_In, elem_of_all_tags in Ht as (m & Hm & Ht).
    by exists m, t.
  - intros (m & t & Hm & Ht & ->). exists (option_of_tag t). split; [done|].
    apply in_map_iff. exists t. split; [done|].
    apply list_elem_of_In, elem_of_all_tags. by exists m.
Qed.

(** X3: the options [tagsFilterOptions] returns are the tags in use: an
    option is offered exactly when it is the option of a tag that some
    model carries, every returned reference reads as an object, and the
    value of every offered option is its label. *)
Theorem tagsFilterOptions_offers_tags_in_use (e : Env) :
  let options :=
    deref (exec tagsFilterOptions e) (eval tagsFilterOptions e) in
  (forall o,
     Some o ∈ options <->
     exists m tag, m ∈ modelData e /\ tag ∈ tags m /\ o = option_of_tag tag) /\
  (None ∉ options) /\
  (forall o, Some o ∈ options -> value o = FOVString (label o)).
Proof.
  cbv zeta. split; [|split].
  - intros o. apply offered_options_iff.
  - rewrite offered_options_read, list_elem_of_In, in_map_iff.
    by intros (o & ? & _).
  - intros o Ho. by apply offered_options_iff in Ho as (m & t & _ & _ & ->).
Qed.

(** X4: a model of the imported array whose tags start with [t] finds the
    option of [t] among the offered ones, that option accepts it, and no
    other offered option does. *)
Theorem offered_option_accepts_first_tag
        (e : Env) (m : Model) (t : string) (rest : list string) :
  m ∈ modelData e -> tags m = t :: rest ->
  let options :=
    deref (exec tagsFilterOptions e) (eval tagsFilterOptions e) in
  Some (option_of_tag t) ∈ options /\
  tagsFilter (value (option_of_tag t)) m = true /\
  (forall o,
     Some o ∈ options -> tagsFilter (value o) m = true -> o = option_of_tag t).
Proof.
  intros Hm Htags. cbv zeta.
  split; [|split].
  - apply offered_options_iff. exists m, t. rewrite Htags. split; [done|]. split; [|done].
    by left.
  - apply tagsFilter_true_iff_head. by rewrite Htags.
  - intros o Ho Hacc.
    apply offered_options_iff in Ho as (m' & t' & _ & _ & ->).
    apply tagsFilter_true_iff_head in Hacc. rewrite Htags in Hacc.
    simpl in Hacc. by injection Hacc as ->.
Qed.

(** ** What [tagsFilterOptions] allocates *)

Lemma set_heap_id (e : Env) : set_heap (heap e) e = e.
Proof. by destruct e. Qed.

Lemma pushed_refs_S (base n : nat) :
  pushed_refs base (S n) = (base + 1)%nat :: pushed_refs (base + 2) n.
Proof.
  unfold pushed_refs. simpl. f_equal; [lia|].
  rewrite <- seq_shift, map_map. apply map_ext. intros k. lia.
Qed.

Lemma pushed_refs_app (base n1 n2 : nat) :
  pushed_refs base (n1 + n2)
  = pushed_refs base n1 ++ pushed_refs (base + 2 * n1) n2.
Proof.
  revert base. induction n1 as [|n1 IH]; intros base.
  - by replace (base + 2 * 0)%nat with base by lia.
  - change (S n1 + n2)%nat with (S (n1 + n2)). rewrite !pushed_refs_S, IH.
    simpl. do 2 f_equal. f_equal. lia.
Qed.

Lemma pushed_refs_bound (base n : nat) :
  Forall (fun r => (r < base + 2 * n)%nat) (pushed_refs base n).
Proof.
  unfold pushed_refs. apply Forall_forall. intros r Hr.
  apply list_elem_of_In, in_map_iff in Hr as (k & <- & Hk).
  apply in_seq in Hk. lia.
Qed.

Lemma allocated_length (ts : list string) :
  length (allocated ts) = (2 * length ts)%nat.
Proof.
  unfold allocated. induction ts as [|t ts IH]; [done|]. simpl in *. lia.
Qed.

Lemma allocated_app (ts1 ts2 : list string) :
  allocated (ts1 ++ ts2) = allocated ts1 ++ allocated ts2.
Proof. unfold allocated. apply flat_map_app. Qed.

(** The probe is a new reference, so it is in no array of older ones. *)
Lemma includes_fresh (acc : list JS.Ref) (n : nat) :
  Forall (fun r => (r < n)%nat) acc -> JS.includes acc n = false.
Proof.
  intros Hacc. unfold JS.includes. apply bool_decide_eq_false. intros Hin.
  rewrite Forall_forall in Hacc. specialize (Hacc n Hin). lia.
Qed.

Lemma tagsFilterOptions_tag_layout (tag : string) (acc : list JS.Ref)
      (e : Env) :
  Forall (fun r => (r < length (heap e))%nat) acc ->
  tagsFilterOptions_tag tag acc e
  = (acc ++ [(length (heap e) + 1)%nat],
     set_heap (heap e ++ allocated [tag]) e).
Proof.
  intros Hacc. unfold tagsFilterOptions_tag, mbind, M_bind, alloc. simpl.
  rewrite (includes_fresh _ _ Hacc). simpl. rewrite length_app. simpl.
  unfold set_heap, mret, M_ret. by rewrite <- app_assoc.
Qed.

Lemma forEach_tags_layout (ts : list string) (acc : list JS.Ref) (e : Env) :
  Forall (fun r => (r < length (heap e))%nat) acc ->
  forEach ts tagsFilterOptions_tag acc e
  = (acc ++ pushed_refs (length (heap e)) (length ts),
     set_heap (heap e ++ allocated ts) e).
Proof.
  revert acc e. induction ts as [|t ts IH]; intros acc e Hacc.
  - simpl. unfold mret, M_ret. by rewrite !app_nil_r, set_heap_id.
  - simpl. unfold mbind, M_bind.
    rewrite (tagsFilterOptions_tag_layout _ _ _ Hacc). rewrite IH.
    + simpl. rewrite length_app. simpl. rewrite pushed_refs_S.
      unfold set_heap. simpl. by rewrite <- !app_assoc.
    + simpl. rewrite length_app. simpl. apply Forall_app. split.
      * eapply Forall_impl; [exact Hacc|]. simpl. lia.
      * repeat constructor. lia.
Qed.

Lemma forEach_models_layout (models : list Model) (acc : list JS.Ref)
      (e : Env) :
  Forall (fun r => (r < length (heap e))%nat) acc ->
  forEach models
    (fun model tags_ => forEach (tags model) tagsFilterOptions_tag tags_)
    acc e
  = (acc ++ pushed_refs (length (heap e)) (length (all_tags models)),
     set_heap (heap e ++ allocated (all_tags models)) e).
Proof.
  revert acc e. induction models as [|m models IH]; intros acc e Hacc.
  - simpl. unfold mret, M_ret. by rewrite !app_nil_r, set_heap_id.
  - simpl. unfold mbind, M_bind.
    rewrite (forEach_tags_layout _ _ _ Hacc). rewrite IH.
    + unfold all_tags. simpl. fold (all_tags models).
      rewrite !length_app, allocated_length, pushed_refs_app, allocated_app.
      unfold set_heap. simpl. by rewrite <- !app_assoc.
    + simpl. rewrite length_app, allocated_length. apply Forall_app. split.
      * eapply Forall_impl; [exact Hacc|]. simpl. lia.
      * apply pushed_refs_bound.
Qed.

Lemma tagsFilterOptions_layout (e : Env) :
  tagsFilterOptions e
  = (pushed_refs (length (heap e)) (length (all_tags (modelData e))),
     set_heap (heap e ++ allocated (all_tags (modelData e))) e).
Proof.
  unfold tagsFilterOptions, mbind, M_bind, get_modelData.
  by rewrite forEach_models_layout.
Qed.

(** X5: [tagsFilterOptions] allocates two objects per tag occurrence, the
    probe of the [includes] test and the pushed option, and returns the
    second of each pair; the heap it found is kept as a prefix, so older
    references read as before, and nothing but the heap changes. *)
Theorem tagsFilterOptions_heap_layout (e : Env) :
  let n := length (all_tags (modelData e)) in
  tagsFilterOptions e
  = (pushed_refs (length (heap e)) n,
     mkEnv (modelData e) (customModel e) (pageSize e)
           (heap e ++ allocated (all_tags (modelData e)))
           (console e) (windows e)) /\
  length (heap (exec tagsFilterOptions e)) = (length (heap e) + 2 * n)%nat /\
  (forall r o,
     heap e !! r = Some o -> heap (exec tagsFilterOptions e) !! r = Some o).
Proof.
  cbv zeta. unfold exec. rewrite tagsFilterOptions_layout.
  split; [reflexivity|]. simpl. split.
  - by rewrite length_app, allocated_length.
  - intros r o Hr. by apply lookup_app_l_Some.
Qed.

Lemma all_tags_nil (models : list Model) :
  all_tags models = [] <-> Forall (fun m => tags m = []) models.
Proof.
  unfold all_tags. induction models as [|m models IH]; simpl.
  - split; [constructor|done].
  - split.
    + intros H. apply app_eq_nil in H as [H1 H2]. constructor; [done|].
      by apply IH.
    + intros H. inversion H as [|? ? H1 H2]; subst. rewrite H1. simpl.
      by apply IH.
Qed.

(** X6: [tagsFilterOptions] returns the empty array exactly when no model
    has a tag (in particular for an empty [modelData]), and then it
    leaves the state as it found it. *)
Theorem tagsFilterOptions_empty (e : Env) :
  (eval tagsFilterOptions e = [] <->
   Forall (fun m => tags m = []) (modelData e)) /\
  (Forall (fun m => tags m = []) (modelData e) ->
   tagsFilterOptions e = ([], e)).
Proof.
  rewrite <- all_tags_nil. unfold eval. rewrite tagsFilterOptions_layout.
  split.
  - simpl. unfold pushed_refs. split.
    + intros H. apply (f_equal length) in H.
      rewrite length_map, length_seq in H. by apply nil_length_inv.
    + by intros ->.
  - intros ->. simpl. by rewrite app_nil_r, set_heap_id.
Qed.

(** ** The filter options of the tags column *)

Lemma setup_heap (e : Env) :
  heap (exec setup e)
  = heap (exec tagsFilterOptions (exec (set_customModel "") e)).
Proof.
  unfold exec, setup, createColumns2, mbind, M_bind. simpl.
  by destruct (tagsFilterOptions _).
Qed.

Lemma setup_filterOptions (e : Env) :
  filterOptions_of (columnsRef (eval setup e)) "tags"
  = Some (eval tagsFilterOptions (exec (set_customModel "") e)).
Proof.
  rewrite setup_columnsRef.
  unfold eval, exec, createColumns2, mbind, M_bind. simpl.
  by destruct (tagsFilterOptions _).
Qed.

(** X7: the filter options the tags column declares are the references
    [tagsFilterOptions] returned during setup; read in the state after
    setup and after any user actions they are the options of all tags of
    the imported models, in array order, each a distinct object. *)
Theorem tags_column_filterOptions (e0 : Env) (actions : list UserAction) :
  let inst := eval setup e0 in
  let e := exec (run inst actions) (exec setup e0) in
  exists refs,
    filterOptions_of (columnsRef inst) "tags" = Some refs /\
    deref e refs
    = map (fun t => Some (option_of_tag t)) (all_tags (modelData e0)) /\
    NoDup refs /\
    filterOptions_of (columnsRef inst) "name" = None /\
    filterOptions_of (columnsRef inst) "menu" = None.
Proof.
  cbv zeta.
  assert (Hnone : filterOptions_of (columnsRef (eval setup e0)) "name" = None /\
                  filterOptions_of (columnsRef (eval setup e0)) "menu" = None).
  { rewrite setup_columnsRef.
    unfold eval, exec, createColumns2, mbind, M_bind.
    by destruct (tagsFilterOptions _). }
  revert Hnone. generalize (filterOptions_of (columnsRef (eval setup e0)) "name").
  generalize (filterOptions_of (columnsRef (eval setup e0)) "menu").
  intros o1 o2 [-> ->].
  rewrite setup_filterOptions.
  destruct (run_frame e0 actions (exec setup e0)) as (_ & _ & Hheap).
  cbv zeta in Hheap. rewrite setup_heap in Hheap.
  destruct (tagsFilterOptions_spec (exec (set_customModel "") e0))
    as (refs & e1 & extra & Hrun & _ & _ & Hd & Hnd).
  unfold eval, exec in *. rewrite Hrun in *. cbn [fst snd] in *.
  exists refs. split; [reflexivity|]. split.
  { unfold deref in *. rewrite Hheap, Hd. by rewrite map_map. }
  by split.
Qed.

(** ** What a sequence of user actions leaves behind *)

Lemma exec_run_cons (inst : Instance) (a : UserAction)
      (rest : list UserAction) (e : Env) :
  exec (run inst (a :: rest)) e = exec (run inst rest) (exec (step inst a) e).
Proof.
  unfold exec. simpl. unfold mbind, M_bind.
  by destruct (step inst a e) as [[] e1].
Qed.

(** The state after a sequence of actions, field by field. *)
Lemma run_effects (e0 : Env) (actions : list UserAction) (e : Env) :
  exec (run (eval setup e0) actions) e
  = mkEnv (modelData e) (typed_last (customModel e) actions) (pageSize e)
          (heap e) (console e ++ logged (modelData e) actions)
          (windows e ++ opened (modelData e) actions).
Proof.
  revert e. induction actions as [|a actions IH]; intros e.
  - destruct e. unfold exec. simpl. by rewrite !app_nil_r.
  - rewrite exec_run_cons, IH. unfold exec. rewrite step_setup.
    unfold logged, opened, typed_last.
    destruct a as [text| |i|i|i j|key|v|n]; simpl; try reflexivity.
    + destruct (modelData e !! i); simpl; [|reflexivity].
      by rewrite <- app_assoc.
    + destruct j; [|reflexivity].
      destruct (modelData e !! i); simpl; [|reflexivity].
      by rewrite <- app_assoc.
Qed.

(** X8: after any sequence of user actions the console holds what it held
    before, followed by one entry ["Accelerate", row.name] for every click
    on the Accelerate button of an existing row, in the order of the
    clicks; no other action writes to it. *)
Theorem console_after_actions (e0 : Env) (actions : list UserAction) (e : Env) :
  console (exec (run (eval setup e0) actions) e)
  = console e ++ logged (modelData e) actions.
Proof. by rewrite run_effects. Qed.

(** X9: after any sequence of user actions the opened tabs are those
    opened before, followed by one tab on [row.huggingface_url] with target
    [_blank] for every click on the Hugging Face option of an existing row,
    in the order of the clicks; no other action opens a window. *)
Theorem windows_after_actions (e0 : Env) (actions : list UserAction) (e : Env) :
  windows (exec (run (eval setup e0) actions) e)
  = windows e ++ opened (modelData e) actions.
Proof. by rewrite run_effects. Qed.

(** X10: on the page the setup script built, the input shows the text that
    was typed last, whatever else the user did in between, and the empty
    string as long as nothing was typed. *)
Theorem input_shows_last_typed (e0 : Env) (actions : list UserAction) :
  let inst := eval setup e0 in
  let e := exec (run inst actions) (exec setup e0) in
  customModel e = typed_last "" actions /\
  input_value (t_input (template inst e)) = typed_last "" actions /\
  (forall text more,
     typed_last "" (actions ++ TypeCustomModel text :: more)
     = typed_last text more).
Proof.
  cbv zeta. rewrite run_effects. destruct (setup_env e0) as (_ & -> & _).
  split; [reflexivity|]. split; [reflexivity|].
  intros text more. unfold typed_last. by rewrite foldl_app.
Qed.

(** X11: the page size is 10 from setup on: no user action changes the
    pagination object, and no user action allocates or drops an object of
    the heap. *)
Theorem pagination_fixed (e0 : Env) (actions : list UserAction) :
  let inst := eval setup e0 in
  let e := exec (run inst actions) (exec setup e0) in
  pageSize e = 10%nat /\
  table_pagination (t_table (template inst e)) = 10%nat /\
  heap e = heap (exec setup e0).
Proof.
  cbv zeta. rewrite run_effects. destruct (setup_env e0) as (_ & _ & -> & _).
  by repeat split.
Qed.

(** ** The cells of a row *)

(** X12: the table gets six cells per model record, in column order: none
    for name and huggingface_id, which have no render function, then the
    tag nodes, the centred example image of [row.example_image_url] (64
    high, cover fit, lazily loaded), the Accelerate button and the hover
    dropdown with the options of the row. *)
Theorem render_cells_shape (e0 e : Env) :
  eval (render_cells (eval setup e0)) e
  = map (fun row =>
           [ None; None;
             Some (h_NSpace None
                     (map (fun tag => h_NTag true (tagColor !! tag) tag)
                          (tags row)));
             Some (h_NSpace (Some "center")
                     [h_NImage (example_image_url row) 64 "cover" true]);
             Some (h_NButton
                     (mkButtonProps (Some "primary") (Some true) (Some true)
                        (Some true) (Some false)
                        (Some (console_log ["Accelerate"; name row])))
                     "Accelerate");
             Some (h_NDropdown "hover" (getPluginOptions row)
                     (mkIcon medium Menu)) ])
        (modelData e).
Proof.
  unfold render_cells, mbind, M_bind. rewrite setup_dataRef, setup_columnsRef.
  unfold eval at 1. simpl.
  unfold eval, exec, createColumns2, mbind, M_bind.
  by destruct (tagsFilterOptions _).
Qed.

(** ** Repeated options *)

Lemma option_of_tag_inj (t1 t2 : string) :
  Some (option_of_tag t1) = Some (option_of_tag t2) -> t1 = t2.
Proof. by intros [= ->]. Qed.

(** X13: the [includes] test removes no duplicate: the options returned
    are free of repetitions exactly when no tag occurs twice in the tags
    of all models taken together. *)
Theorem tagsFilterOptions_repeats_shared_tags (e : Env) :
  NoDup (deref (exec tagsFilterOptions e) (eval tagsFilterOptions e))
  <-> NoDup (all_tags (modelData e)).
Proof.
  rewrite offered_options_read, map_map.
  change (map (fun t => Some (option_of_tag t)) (all_tags (modelData e)))
    with ((fun t => Some (option_of_tag t)) <$> all_tags (modelData e)).
  apply NoDup_fmap. intros t1 t2. apply option_of_tag_inj.
Qed.

End AccelerateView.

(** * The script evaluated on a sample page *)

(** C3, as stated, fails: the table of the page is not set up to sort and
    filter on the client side. *)
Lemma table_not_client_side :
  data_mode
    (t_table
       (template (eval (setup sample_tagColor) sample_env)
                 (exec (setup sample_tagColor) sample_env)))
  <> client_side.
Proof. discriminate. Qed.

(** C4 on the sample page: a click on the second row's button. *)
Lemma accelerate_click_logs_once_sample :
  modelData sample_env !! 1%nat
  = Some (mkModel "Anything V3" "Linaqruf/anything-v3.0"
            "https://huggingface.co/Linaqruf/anything-v3.0"
            ["anime"; "txt2img"] "https://example.org/anything.png") /\
  step (eval (setup sample_tagColor) sample_env) (ClickAccelerate 1)
       sample_env
  = (tt, mkEnv sample_models "typed" 0 [] [["Accelerate"; "Anything V3"]] []).
Proof.
  split; [reflexivity|].
  exact (proj1 (accelerate_click_logs_once sample_tagColor sample_env
                  sample_env 1 _ eq_refl)).
Defined.

(** C9 on the sample page: no model repeats a tag, and the tag shared by
    both models is offered twice. *)
Lemma tagsFilterOptions_one_per_occurrence_sample :
  Forall (fun m => NoDup (tags m)) (modelData sample_env) /\
  count_option "txt2img"
    (deref (exec tagsFilterOptions sample_env)
           (eval tagsFilterOptions sample_env))
  = 2%nat.
Proof.
  assert (H : Forall (fun m => NoDup (tags m)) (modelData sample_env)).
  { apply (bool_decide_unpack _). by vm_compute. }
  split; [exact H|].
  exact (proj2 (proj2 (proj2 (proj2
           (tagsFilterOptions_one_per_occurrence sample_env))))
           "txt2img" H).
Defined.

(** X2 on the sample page: the first model does not carry [anime]. *)
Lemma tagsFilter_rejects_absent_tag_sample :
  (toString (FOVString "anime") ∉ tags sample_row) /\
  tagsFilter (FOVString "anime") sample_row = false.
Proof.
  assert (H : toString (FOVString "anime") ∉ tags sample_row).
  { apply (bool_decide_unpack _). by vm_compute. }
  split; [exact H|].
  exact (proj2 (tagsFilter_rejects_absent_tag (FOVString "anime") sample_row H)).
Defined.

(** X4 on the sample page: the first model and its first tag. *)
Lemma offered_option_accepts_first_tag_sample :
  sample_row ∈ modelData sample_env /\
  tags sample_row = "txt2img" :: ["img2img"] /\
  Some (option_of_tag "txt2img")
  ∈ deref (exec tagsFilterOptions sample_env)
          (eval tagsFilterOptions sample_env).
Proof.
  assert (H : sample_row ∈ modelData sample_env) by (by left).
  split; [exact H|]. split; [reflexivity|].
  exact (proj1 (offered_option_accepts_first_tag sample_env sample_row
                  "txt2img" ["img2img"] H eq_refl)).
Defined.

(** C2 on the sample page, with a table widget that shows the first page
    of its data unless it is remote: after two user actions the rows it
    displays are the two imported models. *)
Lemma table_data_is_modelData_sample :
  (forall p, table_remote p = true -> first_page_rows p = table_data p) /\
  first_page_rows
    (t_table
       (template (eval (setup sample_tagColor) sample_env)
          (exec (run (eval (setup sample_tagColor) sample_env)
                     [ClickAccelerate 0; TypeCustomModel "x"])
                (exec (setup sample_tagColor) sample_env))))
  = sample_models.
Proof.
  assert (H : forall p,
             table_remote p = true -> first_page_rows p = table_data p).
  { intros p Hp. unfold first_page_rows. by rewrite Hp. }
  split; [exact H|].
  exact (proj1 (proj2 (proj2 (proj2 (proj2 (proj2
           (table_data_is_modelData sample_tagColor first_page_rows H
              sample_env [ClickAccelerate 0; TypeCustomModel "x"]))))))).
Defined.
